(** * Behaviour analysis: the frame classifier of server/behavior-analysis.py

    The script decodes one base64 image, runs a Haar cascade face detector on
    its grayscale version, runs an eye detector on the crop of the first face,
    and prints one JSON line with the resulting label.

    The embedding keeps the script's own functions ([detect_face],
    [detect_eyes], [analyze_behavior], [main]) and takes what the script
    imports (base64, numpy, OpenCV) as a [Library] of fallible operations;
    of these, base64.b64decode and json.dumps are also written out.
    Every interaction with a library, and every printed line, is recorded in
    a trace, so that what the script calls, and on which arguments, can be
    stated. *)

From Stdlib Require Import String Ascii List ZArith NArith QArith Lia Bool Arith.
From Stdlib Require Import DecimalString.
From Stdlib.Strings Require Import Byte.
Import ListNotations.
Local Open Scope string_scope.
Local Open Scope Z_scope.

(** ** Python values *)

(** An exception instance, as far as the script looks at it: [str(e)].
    The class name is kept for reading traces.  Every exception of this model
    derives from Python's [Exception], which is what the imported operations
    raise (binascii.Error, ValueError, cv2.error, AttributeError). *)
Record PyException : Type := mkExc {
  exc_class : string;
  exc_str : string
}.

(** A Python call either raises or returns. *)
Definition result (A : Type) : Type := (PyException + A)%type.
Definition ok {A : Type} (a : A) : result A := inr a.
Definition raised {A : Type} (e : PyException) : result A := inl e.

(** [bytes] and uint8 arrays. *)
Definition bytes : Type := list Byte.byte.
Definition uint8_array : Type := list Byte.byte.

(** A decoded BGR frame and its grayscale grid: rows of pixels. *)
Definition Frame : Type := list (list (Byte.byte * Byte.byte * Byte.byte)).
Definition Gray : Type := list (list Byte.byte).

(** One row of the int32 array that detectMultiScale returns:
    [face[0]] = x, [face[1]] = y, [face[2]] = width, [face[3]] = height. *)
Record Rect : Type := mkRect {
  rect_x : Z;
  rect_y : Z;
  rect_w : Z;
  rect_h : Z
}.

(** The keyword arguments of a detectMultiScale call. *)
Record DetectParams : Type := mkParams {
  scaleFactor : Q;
  minNeighbors : Z;
  minSize : Z * Z
}.

(** A loaded cascade classifier: an object with one method.  An empty tuple
    and an array with no row are both the empty list. *)
Record Cascade : Type := mkCascade {
  detectMultiScale : Gray -> DetectParams -> result (list Rect)
}.

(** ** The imported operations *)

Record Library : Type := mkLibrary {
  (* base64.b64decode(s) *)
  base64_b64decode : string -> result bytes;
  (* np.frombuffer(b, np.uint8) *)
  np_frombuffer : bytes -> result uint8_array;
  (* cv2.imdecode(a, cv2.IMREAD_COLOR): None when the data is no image *)
  cv2_imdecode : uint8_array -> result (option Frame);
  (* cv2.data.haarcascades *)
  cv2_data_haarcascades : result string;
  (* cv2.CascadeClassifier(path) *)
  cv2_CascadeClassifier : string -> result Cascade;
  (* cv2.cvtColor(frame, cv2.COLOR_BGR2GRAY) *)
  cv2_cvtColor : option Frame -> result Gray
}.

(** ** Traces and the monad of the script *)

Inductive Event : Type :=
| Ev_b64decode (s : string)
| Ev_frombuffer (b : bytes)
| Ev_imdecode (a : uint8_array)
| Ev_haarcascades
| Ev_CascadeClassifier (path : string)
| Ev_cvtColor (frame : option Frame)
| Ev_detectMultiScale (c : Cascade) (image : Gray) (cfg : DetectParams)
| Ev_print (line : string).

(** A run: what happened, and how it ended. *)
Definition Run (A : Type) : Type := (list Event * result A)%type.

Definition trace {A : Type} (r : Run A) : list Event := fst r.
Definition outcome {A : Type} (r : Run A) : result A := snd r.

Definition ret {A : Type} (a : A) : Run A := ([], ok a).
Definition raise {A : Type} (e : PyException) : Run A := ([], raised e).

Definition bind {A B : Type} (m : Run A) (f : A -> Run B) : Run B :=
  match m with
  | (t, inl e) => (t, inl e)
  | (t, inr a) => let r := f a in ((t ++ trace r)%list, outcome r)
  end.

(** try: m / except Exception as e: h e *)
Definition try_except {A : Type} (m : Run A) (h : PyException -> Run A) : Run A :=
  match m with
  | (t, inl e) => let r := h e in ((t ++ trace r)%list, outcome r)
  | (t, inr a) => (t, inr a)
  end.

(** A library call, recorded. *)
Definition call {A : Type} (ev : Event) (r : result A) : Run A := ([ev], r).

Definition print (line : string) : Run unit := call (Ev_print line) (ok tt).

Declare Scope run_scope.
Delimit Scope run_scope with run.
Notation "x <- m ;; k" := (bind m (fun x => k))
  (at level 61, m at next level, right associativity) : run_scope.
Notation "' pat <- m ;; k" := (bind m (fun x => match x with pat => k end))
  (at level 61, pat pattern, m at next level, right associativity) : run_scope.
Local Open Scope run_scope.

(** ** Indexing and slicing *)

(** [l[i]] for an index that is not negative; IndexError out of range. *)
Definition getitem {A : Type} (l : list A) (i : nat) : Run A :=
  match nth_error l i with
  | Some a => ret a
  | None => raise (mkExc "IndexError" "tuple index out of range")
  end.

(** Addition of two numpy int32 scalars: the sum wraps around. *)
Definition wrap32 (z : Z) : Z := (z + 2 ^ 31) mod 2 ^ 32 - 2 ^ 31.
Definition int32_add (a b : Z) : Z := wrap32 (a + b).

(** A slice bound, adjusted to a sequence of length [n]: a negative bound
    counts from the end, and every bound is clipped to [0, n]. *)
Definition slice_bound (n i : Z) : Z :=
  if i <? 0 then Z.max (i + n) 0 else Z.min i n.

(** [l[start:stop]] *)
Definition slice {A : Type} (l : list A) (start stop : Z) : list A :=
  let n := Z.of_nat (length l) in
  let a := slice_bound n start in
  let b := slice_bound n stop in
  firstn (Z.to_nat (b - a)) (skipn (Z.to_nat a) l).

(** [g[r0:r1, c0:c1]] on a two-dimensional array. *)
Definition slice2 {A : Type} (g : list (list A)) (r0 r1 c0 c1 : Z) : list (list A) :=
  map (fun row => slice row c0 c1) (slice g r0 r1).

(** ** json.dumps on a dict of strings *)

Definition dquote : string := String (ascii_of_nat 34) EmptyString.
Definition backslash : string := String (ascii_of_nat 92) EmptyString.

Definition hex_digit (n : nat) : ascii :=
  nth n ["0"; "1"; "2"; "3"; "4"; "5"; "6"; "7"; "8"; "9";
         "a"; "b"; "c"; "d"; "e"; "f"]%char "0"%char.

(** One character under ensure_ascii: the quote, the backslash and the usual
    control characters have short escapes, the rest of what lies outside
    space..tilde is written \uXXXX.  Characters are code points below 256. *)
Definition escape_char (c : ascii) : string :=
  let n := nat_of_ascii c in
  if (n =? 34)%nat then backslash ++ dquote
  else if (n =? 92)%nat then backslash ++ backslash
  else if (n =? 10)%nat then backslash ++ "n"
  else if (n =? 13)%nat then backslash ++ "r"
  else if (n =? 9)%nat then backslash ++ "t"
  else if (n =? 8)%nat then backslash ++ "b"
  else if (n =? 12)%nat then backslash ++ "f"
  else if ((32 <=? n) && (n <=? 126))%nat then String c EmptyString
  else backslash ++ "u00"
       ++ String (hex_digit (n / 16)) (String (hex_digit (n mod 16)) EmptyString).

Fixpoint escape (s : string) : string :=
  match s with
  | EmptyString => EmptyString
  | String c s' => escape_char c ++ escape s'
  end.

Definition json_string (s : string) : string := dquote ++ escape s ++ dquote.

Definition json_item (kv : string * string) : string :=
  json_string (fst kv) ++ ": " ++ json_string (snd kv).

(** json.dumps(d) with the default separators, keys in insertion order. *)
Definition json_dumps (d : list (string * string)) : string :=
  "{" ++ String.concat ", " (map json_item d) ++ "}".

(** ** The script *)

Definition face_params : DetectParams := mkParams 1.1 5 (30, 30).
Definition eye_params : DetectParams := mkParams 1.1 5 (20, 20).

Definition frontalface_xml : string := "haarcascade_frontalface_default.xml".
Definition eye_xml : string := "haarcascade_eye.xml".

Section Script.

Variable L : Library.

(** cascade.detectMultiScale(image, scaleFactor=.., minNeighbors=.., minSize=..) *)
Definition call_detectMultiScale (c : Cascade) (image : Gray) (cfg : DetectParams)
  : Run (list Rect) :=
  call (Ev_detectMultiScale c image cfg) (detectMultiScale c image cfg).

(** def detect_face(face_cascade, frame) *)
Definition detect_face (face_cascade : Cascade) (frame : option Frame)
  : Run (list Rect * Gray) :=
  gray <- call (Ev_cvtColor frame) (cv2_cvtColor L frame) ;;
  faces <- call_detectMultiScale face_cascade gray face_params ;;
  ret (faces, gray).

(** def detect_eyes(eye_cascade, gray, face) *)
Definition detect_eyes (eye_cascade : Cascade) (gray : Gray) (face : Rect)
  : Run (list Rect) :=
  let roi_gray :=
    slice2 gray (rect_y face) (int32_add (rect_y face) (rect_h face))
                (rect_x face) (int32_add (rect_x face) (rect_w face)) in
  eyes <- call_detectMultiScale eye_cascade roi_gray eye_params ;;
  ret eyes.

(** def analyze_behavior(image_data) *)
Definition analyze_behavior (image_data : string) : Run string :=
  image_bytes <- call (Ev_b64decode image_data) (base64_b64decode L image_data) ;;
  np_array <- call (Ev_frombuffer image_bytes) (np_frombuffer L image_bytes) ;;
  frame <- call (Ev_imdecode np_array) (cv2_imdecode L np_array) ;;
  dir <- call Ev_haarcascades (cv2_data_haarcascades L) ;;
  face_cascade <- call (Ev_CascadeClassifier (dir ++ frontalface_xml))
                       (cv2_CascadeClassifier L (dir ++ frontalface_xml)) ;;
  dir' <- call Ev_haarcascades (cv2_data_haarcascades L) ;;
  eye_cascade <- call (Ev_CascadeClassifier (dir' ++ eye_xml))
                      (cv2_CascadeClassifier L (dir' ++ eye_xml)) ;;
  '(faces, gray) <- detect_face face_cascade frame ;;
  if (length faces =? 0)%nat then
    ret "idle"
  else
    face <- getitem faces 0 ;;
    eyes <- detect_eyes eye_cascade gray face ;;
    if (length eyes <? 2)%nat then
      ret "sleeping"
    else
      ret "working".

(** def main(), on sys.argv *)
Definition main (argv : list string) : Run unit :=
  let image_data :=
    if (1 <? length argv)%nat then nth 1 argv EmptyString else EmptyString in
  (* not image_data: the empty str is the only false one *)
  if (String.length image_data =? 0)%nat then
    print (json_dumps [("status", "error"); ("message", "No image data provided")])
  else
    try_except
      (behavior <- analyze_behavior image_data ;;
       print (json_dumps [("status", behavior)]))
      (fun e => print (json_dumps [("status", "error"); ("message", exc_str e)])).

End Script.

(** ** Vocabulary of the specification *)

(** The run on [image_data] gets as far as the Face Detector, which returns
    [faces] for the grayscale grid [gray]; [eye_cascade] is the eye model
    loaded on the way. *)
Definition face_detector_returns (L : Library) (image_data : string)
    (faces : list Rect) (gray : Gray) (eye_cascade : Cascade) : Prop :=
  exists image_bytes np_array frame dir face_cascade,
    base64_b64decode L image_data = ok image_bytes /\
    np_frombuffer L image_bytes = ok np_array /\
    cv2_imdecode L np_array = ok frame /\
    cv2_data_haarcascades L = ok dir /\
    cv2_CascadeClassifier L (dir ++ frontalface_xml) = ok face_cascade /\
    cv2_CascadeClassifier L (dir ++ eye_xml) = ok eye_cascade /\
    outcome (detect_face L face_cascade frame) = ok (faces, gray).

(** The labels of the taxonomy that a request can end with. *)
Definition produced_labels : list string := ["working"; "idle"; "sleeping"].

(** The image argument of a command line: [sys.argv[1]], or the empty
    string when there is none. *)
Definition image_argument (argv : list string) : string := nth 1 argv EmptyString.

(** What was written to standard output, line by line. *)
Definition printed (t : list Event) : list string :=
  flat_map (fun ev => match ev with Ev_print line => [line] | _ => [] end) t.

(** The library calls of a trace: everything but the printing. *)
Definition library_calls (t : list Event) : list Event :=
  filter (fun ev => match ev with Ev_print _ => false | _ => true end) t.

(** The pipeline starts by decoding its argument, so it was invoked on
    [image_data] exactly when the trace shows that call. *)
Definition pipeline_invoked_on (t : list Event) (image_data : string) : Prop :=
  In (Ev_b64decode image_data) t.

(** A character that is printed as itself; a line of such characters holds
    no line break. *)
Definition printable (c : ascii) : bool :=
  ((32 <=? nat_of_ascii c) && (nat_of_ascii c <=? 126))%nat.

Definition one_line (s : string) : Prop :=
  forallb printable (list_ascii_of_string s) = true.

(** The text of the answer to a request without image, written out. *)
Definition no_image_output : string :=
  "{" ++ dquote ++ "status" ++ dquote ++ ": " ++ dquote ++ "error" ++ dquote
  ++ ", " ++ dquote ++ "message" ++ dquote ++ ": "
  ++ dquote ++ "No image data provided" ++ dquote ++ "}".

(** The answer of section 6 of the specification to a request, as a dict:
    the label, or the error status with a message. *)
Definition error_response (message : string) : list (string * string) :=
  [("status", "error"); ("message", message)].

Definition response (L : Library) (image_data : string) : list (string * string) :=
  match image_data with
  | EmptyString => error_response "No image data provided"
  | _ =>
      match outcome (analyze_behavior L image_data) with
      | inl e => error_response (exc_str e)
      | inr label => [("status", label)]
      end
  end.

(** Payloads whose decoded bytes are no image: imdecode raises on them or
    returns None. *)
Definition not_a_decodable_image (L : Library) (image_data : string) : Prop :=
  exists image_bytes np_array,
    base64_b64decode L image_data = ok image_bytes /\
    np_frombuffer L image_bytes = ok np_array /\
    (cv2_imdecode L np_array = ok None \/
     exists e, cv2_imdecode L np_array = raised e).

(** Two facts about OpenCV that the script leans on when a payload does not
    decode: an exception says what went wrong, and the grayscale conversion
    refuses the missing frame that imdecode leaves behind. *)
Definition has_message {A : Type} (r : result A) : Prop :=
  match r with
  | inl e => exc_str e <> EmptyString
  | inr _ => True
  end.

Definition raises_with_messages (L : Library) : Prop :=
  (forall s, has_message (base64_b64decode L s)) /\
  (forall a, has_message (cv2_imdecode L a)) /\
  has_message (cv2_data_haarcascades L) /\
  (forall path, has_message (cv2_CascadeClassifier L path)) /\
  (forall frame, has_message (cv2_cvtColor L frame)).

Definition rejects_missing_frame (L : Library) : Prop :=
  exists e, cv2_cvtColor L None = raised e.

(** The sample of a grid at row [i], column [j]. *)
Definition sample {A : Type} (g : list (list A)) (i j : nat) : option A :=
  match nth_error g i with
  | Some row => nth_error row j
  | None => None
  end.

(** [g] has [rows] rows of [cols] samples each. *)
Definition grid_shape {A : Type} (g : list (list A)) (rows cols : nat) : Prop :=
  length g = rows /\ Forall (fun row => length row = cols) g.

(** The invariant of a DetectionBox: its rectangle lies within the grid it
    was detected on. *)
Definition box_within (box : Rect) (rows cols : nat) : Prop :=
  0 <= rect_x box /\ 0 <= rect_y box /\ 0 <= rect_w box /\ 0 <= rect_h box /\
  rect_x box + rect_w box <= Z.of_nat cols /\
  rect_y box + rect_h box <= Z.of_nat rows.

(** [roi] is the rectangle [box] of the grid [g], no more and no less: it
    has the height and width of the box, and its sample at (i, j) is the
    sample of [g] at (y + i, x + j). *)
Definition exact_crop {A : Type} (roi g : list (list A)) (box : Rect) : Prop :=
  grid_shape roi (Z.to_nat (rect_h box)) (Z.to_nat (rect_w box)) /\
  forall i j : nat,
    (i < Z.to_nat (rect_h box))%nat ->
    (j < Z.to_nat (rect_w box))%nat ->
    sample roi i j <> None /\
    sample roi i j
    = sample g (Z.to_nat (rect_y box) + i) (Z.to_nat (rect_x box) + j).

(** How often a trace shows a call of some kind. *)
Definition calls (kind : Event -> bool) (t : list Event) : nat :=
  length (filter kind t).

Definition is_b64decode (ev : Event) : bool :=
  match ev with Ev_b64decode _ => true | _ => false end.
Definition is_imdecode (ev : Event) : bool :=
  match ev with Ev_imdecode _ => true | _ => false end.
Definition is_detection (ev : Event) : bool :=
  match ev with Ev_detectMultiScale _ _ _ => true | _ => false end.

(** The library raises [e] on a call of the script, or returns from it. *)
Definition raises_on (L : Library) (ev : Event) (e : PyException) : Prop :=
  match ev with
  | Ev_b64decode s => base64_b64decode L s = raised e
  | Ev_frombuffer b => np_frombuffer L b = raised e
  | Ev_imdecode a => cv2_imdecode L a = raised e
  | Ev_haarcascades => cv2_data_haarcascades L = raised e
  | Ev_CascadeClassifier path => cv2_CascadeClassifier L path = raised e
  | Ev_cvtColor frame => cv2_cvtColor L frame = raised e
  | Ev_detectMultiScale c image cfg => detectMultiScale c image cfg = raised e
  | Ev_print _ => False
  end.

Definition returns_on (L : Library) (ev : Event) : Prop :=
  forall e, ~ raises_on L ev e.

(** What an event is a call of. *)
Inductive Kind : Type :=
| K_b64decode
| K_frombuffer
| K_imdecode
| K_haarcascades
| K_CascadeClassifier
| K_cvtColor
| K_detectMultiScale
| K_print.

Definition kind (ev : Event) : Kind :=
  match ev with
  | Ev_b64decode _ => K_b64decode
  | Ev_frombuffer _ => K_frombuffer
  | Ev_imdecode _ => K_imdecode
  | Ev_haarcascades => K_haarcascades
  | Ev_CascadeClassifier _ => K_CascadeClassifier
  | Ev_cvtColor _ => K_cvtColor
  | Ev_detectMultiScale _ _ _ => K_detectMultiScale
  | Ev_print _ => K_print
  end.

(** The library calls of [analyze_behavior] in the order of its statements:
    decoding, the two models, the grayscale grid, the two detectors. *)
Definition pipeline_protocol : list Kind :=
  [K_b64decode; K_frombuffer; K_imdecode;
   K_haarcascades; K_CascadeClassifier; K_haarcascades; K_CascadeClassifier;
   K_cvtColor; K_detectMultiScale; K_detectMultiScale].

Definition is_prefix {A : Type} (l m : list A) : Prop :=
  exists rest, m = (l ++ rest)%list.

(** The text of the answer that carries a label, written out. *)
Definition status_output (label : string) : string :=
  "{" ++ dquote ++ "status" ++ dquote ++ ": " ++ dquote ++ label ++ dquote ++ "}".

(** ** base64.b64decode, as the script calls it

    The decoder of CPython (base64.py and binascii.c, 3.11): text is encoded
    to ASCII, which fails on other characters; then a2b_base64 runs without
    strict mode, so characters outside the alphabet are skipped and pad
    characters count only where they can end the data. *)
Module Base64.

(** table_a2b_base64 *)
Definition value (c : ascii) : option N :=
  let n := N_of_ascii c in
  if ((65 <=? n) && (n <=? 90))%N then Some (n - 65)%N
  else if ((97 <=? n) && (n <=? 122))%N then Some (n - 71)%N
  else if ((48 <=? n) && (n <=? 57))%N then Some (n + 4)%N
  else if (n =? 43)%N then Some 62%N
  else if (n =? 47)%N then Some 63%N
  else None.

Definition is_pad (c : ascii) : bool := (N_of_ascii c =? 61)%N.

(** A value stored into an unsigned char. *)
Definition uchar (n : N) : Byte.byte :=
  match Byte.of_N (N.land n 255) with
  | Some b => b
  | None => "000"%byte
  end.

(** How the loop over the input ends: at a pad sequence that closes the
    data (goto done), or at the end of the input with [quad_pos] characters
    of an unfinished group. *)
Inductive LoopEnd : Type :=
| Done (bin_data : bytes)
| EndOfInput (quad_pos : nat) (bin_data : bytes).

Fixpoint a2b_loop (ascii_data : list ascii) (quad_pos : nat) (leftchar : N)
    (pads : nat) (bin_data : bytes) : LoopEnd :=
  match ascii_data with
  | [] => EndOfInput quad_pos bin_data
  | this_ch :: rest =>
      if is_pad this_ch then
        if (2 <=? quad_pos)%nat then
          if (4 <=? quad_pos + S pads)%nat then Done bin_data
          else a2b_loop rest quad_pos leftchar (S pads) bin_data
        else a2b_loop rest quad_pos leftchar pads bin_data
      else
        match value this_ch with
        | None => a2b_loop rest quad_pos leftchar pads bin_data
        | Some v =>
            match quad_pos with
            | 0%nat => a2b_loop rest 1 v 0 bin_data
            | 1%nat =>
                a2b_loop rest 2 (N.land v 15) 0
                  (bin_data ++ [uchar (N.lor (N.shiftl leftchar 2) (N.shiftr v 4))])%list
            | 2%nat =>
                a2b_loop rest 3 (N.land v 3) 0
                  (bin_data ++ [uchar (N.lor (N.shiftl leftchar 4) (N.shiftr v 2))])%list
            | _ =>
                a2b_loop rest 0 0 0
                  (bin_data ++ [uchar (N.lor (N.shiftl leftchar 6) v)])%list
            end
        end
  end.

Definition decimal (n : nat) : string := NilZero.string_of_uint (Nat.to_uint n).

(** binascii.a2b_base64(data) *)
Definition a2b_base64 (ascii_data : list ascii) : result bytes :=
  match a2b_loop ascii_data 0 0 0 [] with
  | Done bin_data => ok bin_data
  | EndOfInput quad_pos bin_data =>
      if (quad_pos =? 0)%nat then ok bin_data
      else if (quad_pos =? 1)%nat then
        raised (mkExc "binascii.Error"
                  ("Invalid base64-encoded string: number of data characters ("
                   ++ decimal (length bin_data / 3 * 4 + 1)
                   ++ ") cannot be 1 more than a multiple of 4"))
      else raised (mkExc "binascii.Error" "Incorrect padding")
  end.

(** base64.b64decode(s) for a str [s] *)
Definition b64decode (s : string) : result bytes :=
  if forallb (fun c => (N_of_ascii c <? 128)%N) (list_ascii_of_string s)
  then a2b_base64 (list_ascii_of_string s)
  else raised (mkExc "ValueError" "string argument should contain only ASCII characters").

(** Text that is base64 as RFC 4648 defines it: groups of four characters
    of the alphabet, the last one closed by at most two pad characters. *)
Fixpoint alphabet_then_pads (chars : list ascii) : bool :=
  match chars with
  | [] => true
  | c :: rest =>
      match value c with
      | Some _ => alphabet_then_pads rest
      | None => forallb is_pad chars && (length chars <=? 2)%nat
      end
  end.

Definition valid (s : string) : bool :=
  (String.length s mod 4 =? 0)%nat && alphabet_then_pads (list_ascii_of_string s).

End Base64.

(** The library decodes base64 as Python does. *)
Definition python_base64 (L : Library) : Prop :=
  forall s, base64_b64decode L s = Base64.b64decode s.

(** ** A small concrete library, to run the script on

    Payloads are read as raw bytes.  A payload starting with I is an image
    whose remaining bytes give one row of four equal pixels each.  The face
    model reports a 2x2 face at the origin when the top left sample is f, a
    face one column wide when it is g; the eye model reports one eye per
    sample e of the region it is given. *)
Module Demo.

Definition b64decode (s : string) : result bytes :=
  if String.eqb s "=" then raised (mkExc "binascii.Error" "Incorrect padding")
  else ok (list_byte_of_string s).

Definition imdecode (a : uint8_array) : result (option Frame) :=
  match a with
  | [] => raised (mkExc "cv2.error" "(-215:Assertion failed) !buf.empty() in function 'imdecode_'")
  | x :: rest =>
      if Byte.eqb x "I"%byte
      then ok (Some (map (fun b => repeat (b, b, b) 4) rest))
      else ok None
  end.

Definition cvtColor (frame : option Frame) : result Gray :=
  match frame with
  | None => raised (mkExc "cv2.error" "(-215:Assertion failed) !_src.empty() in function 'cvtColor'")
  | Some f => ok (map (map (fun px => fst (fst px))) f)
  end.

Definition top_left (g : Gray) : option Byte.byte :=
  match g with
  | (b :: _) :: _ => Some b
  | _ => None
  end.

Definition face_model : Cascade :=
  mkCascade (fun g _ =>
    match top_left g with
    | Some b =>
        if Byte.eqb b "f"%byte then ok [mkRect 0 0 2 2; mkRect 1 1 2 2]
        else if Byte.eqb b "g"%byte then ok [mkRect 0 0 1 2]
        else ok []
    | None => ok []
    end).

Definition eye_model : Cascade :=
  mkCascade (fun g _ =>
    ok (map (fun _ => mkRect 0 0 1 1)
            (filter (fun b => Byte.eqb b "e"%byte) (List.concat g)))).

(** The grayscale grid of the image whose first two rows are [a] and [b]. *)
Definition grid (a b : Byte.byte) : Gray :=
  [repeat a 4; repeat b 4; repeat "x"%byte 4; repeat "x"%byte 4].

Definition haarcascades : string := "/usr/share/opencv4/haarcascades/".

Definition CascadeClassifier (path : string) : result Cascade :=
  if String.eqb path (haarcascades ++ eye_xml) then ok eye_model else ok face_model.

Definition lib : Library :=
  mkLibrary b64decode (fun b => ok b) imdecode (ok haarcascades) CascadeClassifier cvtColor.

End Demo.

(** The demonstration library with the base64 decoder of Python: the
    payload SWZleHg= holds the bytes Ifexx. *)
Module PyDemo.

Definition lib : Library :=
  mkLibrary Base64.b64decode (fun b => ok b) Demo.imdecode (ok Demo.haarcascades)
            Demo.CascadeClassifier Demo.cvtColor.

End PyDemo.

(** The demonstration library on a machine where the eye model is missing. *)
Module DemoFaults.

Definition CascadeClassifier (path : string) : result Cascade :=
  if String.eqb path (Demo.haarcascades ++ eye_xml)
  then raised (mkExc "cv2.error" "(-2:Unspecified error) cannot open haarcascade_eye.xml")
  else ok Demo.face_model.

Definition lib : Library :=
  mkLibrary Demo.b64decode (fun b => ok b) Demo.imdecode (ok Demo.haarcascades)
            CascadeClassifier Demo.cvtColor.

End DemoFaults.

(** * Properties *)

Arguments slice2 : simpl never.
Arguments int32_add : simpl never.
Arguments json_dumps : simpl never.

(** ** The monad *)

Lemma outcome_bind {A B : Type} (m : Run A) (f : A -> Run B) :
  outcome (bind m f) =
  match outcome m with
  | inl e => inl e
  | inr a => outcome (f a)
  end.
Proof. destruct m as [t [e | a]]; reflexivity. Qed.

Lemma trace_bind {A B : Type} (m : Run A) (f : A -> Run B) :
  trace (bind m f) =
  (trace m ++ match outcome m with
              | inl _ => []
              | inr a => trace (f a)
              end)%list.
Proof.
  destruct m as [t [e | a]]; simpl; [now rewrite app_nil_r | reflexivity].
Qed.

Lemma outcome_call {A : Type} (ev : Event) (r : result A) : outcome (call ev r) = r.
Proof. reflexivity. Qed.

Lemma trace_call {A : Type} (ev : Event) (r : result A) : trace (call ev r) = [ev].
Proof. reflexivity. Qed.

Lemma run_eta {A : Type} (r : Run A) : r = (trace r, outcome r).
Proof. now destruct r. Qed.

Lemma bind_ret_l {A B : Type} (a : A) (f : A -> Run B) : bind (ret a) f = f a.
Proof. symmetry. apply run_eta. Qed.

Lemma bind_ret_r {A : Type} (m : Run A) : bind m ret = m.
Proof. destruct m as [t [e | a]]; simpl; [reflexivity | now rewrite app_nil_r]. Qed.

Lemma bind_assoc {A B C : Type} (m : Run A) (f : A -> Run B) (g : B -> Run C) :
  bind (bind m f) g = bind m (fun x => bind (f x) g).
Proof.
  destruct m as [t [e | a]]; simpl; [reflexivity |].
  destruct (f a) as [t' [e | b]]; simpl; [reflexivity |].
  unfold trace, outcome; simpl. now rewrite app_assoc.
Qed.

Lemma outcome_bind_call {A B : Type} (ev : Event) (r : result A) (f : A -> Run B) :
  outcome (bind (call ev r) f) =
  match r with
  | inl e => inl e
  | inr a => outcome (f a)
  end.
Proof. now destruct r. Qed.

Lemma trace_bind_call {A B : Type} (ev : Event) (r : result A) (f : A -> Run B) :
  trace (bind (call ev r) f) =
  ev :: match r with
        | inl _ => []
        | inr a => trace (f a)
        end.
Proof. now destruct r. Qed.

Lemma printed_app (t t' : list Event) :
  printed (t ++ t') = (printed t ++ printed t')%list.
Proof. apply flat_map_app. Qed.

(** One step of a run whose next library call is known to return. *)
Ltac call_returns H :=
  rewrite outcome_bind, outcome_call, ?H; cbv beta iota delta [ok].

(** One step of a run: by what is known of the next library call, or else
    by cases on what it does. *)
Ltac run_step :=
  first
    [ rewrite bind_assoc
    | rewrite bind_ret_l; cbv beta iota
    | first [ rewrite trace_bind_call, ?outcome_bind_call
            | rewrite outcome_bind_call ];
      cbv beta iota;
      try match goal with
          | H : ?r = _ |- context [match ?r with inl _ => _ | inr _ => _ end] =>
              rewrite H; cbv beta iota delta [ok raised]
          | |- context [match ?r with inl _ => _ | inr _ => _ end] =>
              destruct r as [? | ?] eqn:?; cbv beta iota
          end ].

Ltac unfold_pipeline :=
  unfold analyze_behavior, detect_face, detect_eyes, call_detectMultiScale.

(** The run up to the Face Detector by cases, then the cases of its result
    [faces], then the run of the Eye Detector. *)
Ltac pipeline_cases faces :=
  unfold_pipeline;
  repeat run_step;
  try match goal with
      | H : detectMultiScale _ _ face_params = inr ?l |- _ =>
          rename l into faces;
          destruct faces as [| ? ?];
          cbn [length Nat.eqb getitem nth_error];
          repeat run_step
      end.

(** ** The decision rule *)

Section DecisionRule.

Variable L : Library.

(** Up to the Face Detector, the label is decided by what follows it. *)
Lemma analyze_behavior_after_faces image_data faces gray eye_cascade :
  face_detector_returns L image_data faces gray eye_cascade ->
  outcome (analyze_behavior L image_data) =
  outcome (if (length faces =? 0)%nat then ret "idle"
           else face <- getitem faces 0 ;;
                eyes <- detect_eyes eye_cascade gray face ;;
                if (length eyes <? 2)%nat then ret "sleeping" else ret "working").
Proof.
  intros (image_bytes & np_array & frame & dir & face_cascade &
          Hb64 & Hbuf & Hdec & Hdir & Hface & Heye & Hdet).
  unfold analyze_behavior.
  call_returns Hb64.
  call_returns Hbuf.
  call_returns Hdec.
  call_returns Hdir.
  call_returns Hface.
  call_returns Hdir.
  call_returns Heye.
  rewrite outcome_bind, Hdet; cbv beta iota delta [ok].
  reflexivity.
Qed.

(** C1. When the Face Detector returns no box, the label is idle. *)
Theorem no_face_is_idle image_data faces gray eye_cascade :
  face_detector_returns L image_data faces gray eye_cascade ->
  length faces = 0%nat ->
  outcome (analyze_behavior L image_data) = ok "idle".
Proof.
  intros Hrun Hlen.
  rewrite (analyze_behavior_after_faces _ _ _ _ Hrun), Hlen.
  reflexivity.
Qed.

(** What the script does once it holds the first face. *)
Lemma analyze_behavior_after_eyes image_data faces gray eye_cascade face eyes :
  face_detector_returns L image_data faces gray eye_cascade ->
  nth_error faces 0 = Some face ->
  outcome (detect_eyes eye_cascade gray face) = ok eyes ->
  outcome (analyze_behavior L image_data) =
  ok (if (length eyes <? 2)%nat then "sleeping" else "working").
Proof.
  intros Hrun Hface Heyes.
  rewrite (analyze_behavior_after_faces _ _ _ _ Hrun).
  destruct faces as [| f rest]; [discriminate |].
  injection Hface as ->.
  cbn [length Nat.eqb getitem nth_error].
  rewrite bind_ret_l, outcome_bind, Heyes; cbv beta iota delta [ok].
  now destruct (length eyes <? 2)%nat.
Qed.

(** C2. A face whose crop shows fewer than two eyes is labelled sleeping. *)
Theorem few_eyes_is_sleeping image_data faces gray eye_cascade face eyes :
  face_detector_returns L image_data faces gray eye_cascade ->
  nth_error faces 0 = Some face ->
  outcome (detect_eyes eye_cascade gray face) = ok eyes ->
  (length eyes < 2)%nat ->
  outcome (analyze_behavior L image_data) = ok "sleeping".
Proof.
  intros Hrun Hface Heyes Hlt.
  rewrite (analyze_behavior_after_eyes _ _ _ _ _ _ Hrun Hface Heyes).
  apply Nat.ltb_lt in Hlt. now rewrite Hlt.
Qed.

(** C3. A face whose crop shows two eyes or more is labelled working. *)
Theorem two_eyes_is_working image_data faces gray eye_cascade face eyes :
  face_detector_returns L image_data faces gray eye_cascade ->
  nth_error faces 0 = Some face ->
  outcome (detect_eyes eye_cascade gray face) = ok eyes ->
  (2 <= length eyes)%nat ->
  outcome (analyze_behavior L image_data) = ok "working".
Proof.
  intros Hrun Hface Heyes Hge.
  rewrite (analyze_behavior_after_eyes _ _ _ _ _ _ Hrun Hface Heyes).
  apply Nat.ltb_ge in Hge. now rewrite Hge.
Qed.

End DecisionRule.

(** ** Labels *)

Section Labels.

Variable L : Library.

(** A label that the pipeline returns is one of three. *)
Lemma analyze_behavior_label image_data label :
  outcome (analyze_behavior L image_data) = ok label -> In label produced_labels.
Proof.
  pipeline_cases faces; try discriminate.
  - intros [= <-]. simpl; auto.
  - destruct (length _ <? 2)%nat; intros [= <-]; simpl; auto.
Qed.

(** C4. The label moving is never produced: a label that the pipeline
    returns is working, idle or sleeping. *)
Theorem moving_is_never_produced image_data label :
  outcome (analyze_behavior L image_data) = ok label ->
  In label produced_labels /\ label <> "moving".
Proof.
  intros Hlabel. apply analyze_behavior_label in Hlabel.
  split; [exact Hlabel |].
  simpl in Hlabel.
  destruct Hlabel as [<- | [<- | [<- | []]]]; discriminate.
Qed.

End Labels.

(** ** Traces of the pipeline *)

Section PipelineTraces.

Variable L : Library.

(** The pipeline prints nothing. *)
Lemma analyze_behavior_prints_nothing image_data :
  printed (trace (analyze_behavior L image_data)) = [].
Proof.
  pipeline_cases faces; try reflexivity.
  now destruct (length _ <? 2)%nat.
Qed.

(** The pipeline decodes its argument first, and only once. *)
Lemma analyze_behavior_decodes_once image_data :
  exists t,
    trace (analyze_behavior L image_data) = Ev_b64decode image_data :: t /\
    forall s, ~ In (Ev_b64decode s) t.
Proof.
  pipeline_cases faces;
    try match goal with |- context [(length ?l <? 2)%nat] => destruct (length l <? 2)%nat end;
    eexists; (split; [reflexivity |]);
    intros s' H; simpl in H; intuition discriminate.
Qed.

End PipelineTraces.

(** ** The printed line *)

Lemma one_line_app (a b : string) : one_line a -> one_line b -> one_line (a ++ b).
Proof.
  unfold one_line. induction a as [| c a IH]; simpl; intros Ha Hb; [exact Hb |].
  apply andb_true_iff in Ha. destruct Ha as [Hc Ha].
  rewrite Hc. now apply IH.
Qed.

Lemma escape_char_one_line (c : ascii) : one_line (escape_char c).
Proof. destruct c as [[] [] [] [] [] [] [] []]; reflexivity. Qed.

Lemma escape_one_line (s : string) : one_line (escape s).
Proof.
  induction s as [| c s IH]; simpl; [reflexivity |].
  apply one_line_app; [apply escape_char_one_line | exact IH].
Qed.

Lemma json_string_one_line (s : string) : one_line (json_string s).
Proof.
  unfold json_string.
  apply one_line_app; [reflexivity |].
  apply one_line_app; [apply escape_one_line | reflexivity].
Qed.

Lemma json_item_one_line (kv : string * string) : one_line (json_item kv).
Proof.
  unfold json_item.
  apply one_line_app; [apply json_string_one_line |].
  apply one_line_app; [reflexivity | apply json_string_one_line].
Qed.

(** What json.dumps returns holds no line break. *)
Lemma json_dumps_one_line (d : list (string * string)) : one_line (json_dumps d).
Proof.
  unfold json_dumps.
  apply (one_line_app "{"); [reflexivity |].
  apply one_line_app; [| reflexivity].
  induction d as [| kv d IH]; [reflexivity |].
  destruct d as [| kv' d]; [apply json_item_one_line |].
  change (one_line (json_item kv ++ ", " ++ String.concat ", " (map json_item (kv' :: d)))).
  apply one_line_app; [apply json_item_one_line |].
  apply one_line_app; [reflexivity | exact IH].
Qed.

Example no_image_output_is_json :
  json_dumps (error_response "No image data provided") = no_image_output.
Proof. reflexivity. Qed.

(** ** The request handler *)

Section RequestHandler.

Variable L : Library.

Lemma main_image_argument argv :
  (if (1 <? length argv)%nat then nth 1 argv EmptyString else EmptyString)
  = image_argument argv.
Proof. now destruct argv as [| prog [| image_data rest]]. Qed.

(** A run of [main]: the library calls of the pipeline when there is an
    image argument, then one printed line, the answer of the specification. *)
Lemma main_run argv :
  main L argv =
  ((match image_argument argv with
    | EmptyString => []
    | image_data => trace (analyze_behavior L image_data)
    end ++ [Ev_print (json_dumps (response L (image_argument argv)))])%list,
   ok tt).
Proof.
  unfold main. rewrite main_image_argument.
  destruct (image_argument argv) as [| c s] eqn:Harg; [reflexivity |].
  cbn [String.length Nat.eqb response].
  destruct (analyze_behavior L (String c s)) as [t [e | label]]; reflexivity.
Qed.

Lemma main_printed argv :
  printed (trace (main L argv)) = [json_dumps (response L (image_argument argv))].
Proof.
  rewrite main_run. cbn [trace fst]. rewrite printed_app.
  destruct (image_argument argv); [reflexivity |].
  now rewrite analyze_behavior_prints_nothing.
Qed.

(** C5. Whatever the command line and the libraries do, [main] returns
    normally after printing exactly one line, a JSON object; and when the
    pipeline raises an exception e, that line is the error object with
    str(e) as its message. *)
Theorem failures_become_error_output argv :
  outcome (main L argv) = ok tt /\
  (exists d, printed (trace (main L argv)) = [json_dumps d] /\ one_line (json_dumps d)) /\
  (forall e,
     image_argument argv <> EmptyString ->
     outcome (analyze_behavior L (image_argument argv)) = raised e ->
     printed (trace (main L argv)) = [json_dumps (error_response (exc_str e))]).
Proof.
  split; [now rewrite main_run |].
  split.
  - exists (response L (image_argument argv)).
    split; [apply main_printed | apply json_dumps_one_line].
  - intros e Harg Hraise. rewrite main_printed. unfold response.
    destruct (image_argument argv); [now elim Harg |].
    now rewrite Hraise.
Qed.

(** C6. Without an image argument, [main] prints the fixed error object,
    calls no library and returns normally. *)
Theorem no_argument_output argv :
  (length argv <= 1)%nat ->
  main L argv = ([Ev_print no_image_output], ok tt).
Proof.
  intros Hlen. rewrite main_run.
  assert (Harg : image_argument argv = EmptyString).
  { destruct argv as [| prog [| image_data rest]]; [reflexivity | reflexivity |].
    simpl in Hlen. lia. }
  now rewrite Harg.
Qed.

(** C10. An empty image argument is answered as a missing one, with the
    fixed error object and no library call; and no run of [main] invokes the
    pipeline on the empty payload. *)
Theorem empty_argument_as_missing prog rest :
  main L (prog :: EmptyString :: rest) = main L [prog] /\
  main L (prog :: EmptyString :: rest) = ([Ev_print no_image_output], ok tt) /\
  (forall argv, ~ pipeline_invoked_on (trace (main L argv)) EmptyString).
Proof.
  split; [reflexivity |]. split; [reflexivity |].
  intros argv. unfold pipeline_invoked_on. rewrite main_run. cbn [trace fst].
  intros Hin. apply in_app_or in Hin. destruct Hin as [Hin | Hin].
  - destruct (image_argument argv) as [| c s]; [exact Hin |].
    destruct (analyze_behavior_decodes_once L (String c s)) as (t & Ht & Hno).
    rewrite Ht in Hin. destruct Hin as [Hin | Hin]; [discriminate | now apply Hno in Hin].
  - destruct Hin as [Hin | []]. discriminate.
Qed.

End RequestHandler.

(** ** base64 as Python decodes it *)

Lemma value_is_ascii (c : ascii) (v : N) :
  Base64.value c = Some v -> (N_of_ascii c <? 128)%N = true /\ Base64.is_pad c = false.
Proof.
  unfold Base64.value, Base64.is_pad. intros Hv.
  destruct (N.leb_spec 65 (N_of_ascii c)), (N.leb_spec (N_of_ascii c) 90);
    cbn [andb] in Hv;
    destruct (N.leb_spec 97 (N_of_ascii c)), (N.leb_spec (N_of_ascii c) 122);
    cbn [andb] in Hv;
    destruct (N.leb_spec 48 (N_of_ascii c)), (N.leb_spec (N_of_ascii c) 57);
    cbn [andb] in Hv;
    destruct (N.eqb_spec (N_of_ascii c) 43), (N.eqb_spec (N_of_ascii c) 47);
    try discriminate;
    (split; [apply N.ltb_lt | apply N.eqb_neq]; lia).
Qed.

Lemma pad_is_ascii (c : ascii) :
  Base64.is_pad c = true -> (N_of_ascii c <? 128)%N = true /\ Base64.value c = None.
Proof.
  unfold Base64.is_pad. intros Hpad. apply N.eqb_eq in Hpad.
  unfold Base64.value. rewrite Hpad. now split.
Qed.

Lemma pads_are_ascii (chars : list ascii) :
  forallb Base64.is_pad chars = true ->
  forallb (fun c => (N_of_ascii c <? 128)%N) chars = true.
Proof.
  induction chars as [| c rest IH]; [reflexivity |].
  cbn [forallb]. intros Hpads. apply andb_true_iff in Hpads.
  destruct Hpads as [Hc Hrest].
  destruct (pad_is_ascii c Hc) as [-> _]. now apply IH.
Qed.

(** Valid base64 is text of ASCII characters. *)
Lemma alphabet_then_pads_ascii (chars : list ascii) :
  Base64.alphabet_then_pads chars = true ->
  forallb (fun c => (N_of_ascii c <? 128)%N) chars = true.
Proof.
  induction chars as [| c rest IH]; [reflexivity |].
  cbn [Base64.alphabet_then_pads].
  destruct (Base64.value c) as [v |] eqn:Hv.
  - intros Hrest. cbn [forallb].
    destruct (value_is_ascii c v Hv) as [-> _]. now apply IH.
  - intros Hpads. apply andb_true_iff in Hpads. destruct Hpads as [Hpads _].
    now apply pads_are_ascii.
Qed.

(** On valid base64 the loop of a2b_base64 ends at a closing pad or at the
    end of a group. *)
Lemma a2b_loop_valid (chars : list ascii) :
  forall quad_pos leftchar bin_data,
    Base64.alphabet_then_pads chars = true ->
    (quad_pos < 4)%nat ->
    ((quad_pos + length chars) mod 4 = 0)%nat ->
    match Base64.a2b_loop chars quad_pos leftchar 0 bin_data with
    | Base64.Done _ => True
    | Base64.EndOfInput quad_pos' _ => quad_pos' = 0%nat
    end.
Proof.
  induction chars as [| c rest IH]; intros quad_pos leftchar bin_data Hvalid Hlt Hmod.
  - cbn [Base64.a2b_loop]. cbn [length] in Hmod.
    rewrite Nat.add_0_r, Nat.mod_small in Hmod by assumption. exact Hmod.
  - cbn [Base64.alphabet_then_pads] in Hvalid. cbn [length] in Hmod.
    destruct (Base64.value c) as [v |] eqn:Hv.
    + destruct (value_is_ascii c v Hv) as [_ Hpad].
      cbn [Base64.a2b_loop]. rewrite Hpad, Hv.
      destruct quad_pos as [| [| [| [| ?]]]]; try lia;
        apply IH; try assumption; try lia;
        first [ rewrite <- Hmod; f_equal; lia
              | replace (3 + S (length rest))%nat with (length rest + 1 * 4)%nat
                  in Hmod by lia;
                now rewrite Nat.Div0.mod_add in Hmod ].
    + apply andb_true_iff in Hvalid. destruct Hvalid as [Hpads Hlen].
      cbn [forallb] in Hpads. apply andb_true_iff in Hpads.
      destruct Hpads as [Hc Hrest].
      apply Nat.leb_le in Hlen. cbn [length] in Hlen.
      cbn [Base64.a2b_loop]. rewrite Hc.
      destruct rest as [| c' [| ? ?]]; cbn [length] in *; try lia.
      * assert (quad_pos = 3%nat) as ->
          by (destruct quad_pos as [| [| [| [| ?]]]]; try lia; discriminate).
        exact I.
      * assert (quad_pos = 2%nat) as ->
          by (destruct quad_pos as [| [| [| [| ?]]]]; try lia; discriminate).
        cbn [forallb] in Hrest. apply andb_true_iff in Hrest.
        destruct Hrest as [Hc' _].
        cbn [Base64.a2b_loop Nat.leb Nat.add]. rewrite Hc'. exact I.
Qed.

(** Valid base64 is decoded: what b64decode rejects is not valid base64. *)
Lemma valid_base64_is_decoded (s : string) :
  Base64.valid s = true -> exists image_bytes, Base64.b64decode s = ok image_bytes.
Proof.
  unfold Base64.valid, Base64.b64decode. intros Hvalid.
  apply andb_true_iff in Hvalid. destruct Hvalid as [Hlen Hchars].
  apply Nat.eqb_eq in Hlen.
  rewrite (alphabet_then_pads_ascii _ Hchars).
  unfold Base64.a2b_base64.
  assert (Hloop := a2b_loop_valid (list_ascii_of_string s) 0 0 [] Hchars).
  assert (Hsize : length (list_ascii_of_string s) = String.length s).
  { clear. induction s as [| c s IH]; [reflexivity |]. cbn. now rewrite IH. }
  rewrite Hsize in Hloop. specialize (Hloop ltac:(lia) Hlen).
  destruct (Base64.a2b_loop (list_ascii_of_string s) 0 0 0 []) as [b | q b].
  - now exists b.
  - subst q. now exists b.
Qed.

(** The exceptions of b64decode say what went wrong. *)
Lemma b64decode_error_message (s : string) (e : PyException) :
  Base64.b64decode s = raised e -> exc_str e <> EmptyString.
Proof.
  unfold Base64.b64decode, Base64.a2b_base64, raised, ok.
  destruct (forallb _ _); [| intros [= <-]; discriminate].
  destruct (Base64.a2b_loop _ _ _ _ _) as [b | q b]; [discriminate |].
  destruct (q =? 0)%nat; [discriminate |].
  destruct (q =? 1)%nat; intros [= <-]; discriminate.
Qed.

(** Characters outside the alphabet are skipped, wherever they stand; so
    for one in front of the payload. *)
Lemma b64decode_skips_junk (s : string) :
  Base64.b64decode (String "!" s) = Base64.b64decode s.
Proof. reflexivity. Qed.

(** ** Payloads that do not decode *)

Section DecodeFailure.

Variable L : Library.
Hypothesis python : python_base64 L.
Hypothesis missing_frame : rejects_missing_frame L.

(** Text that is not valid base64 gets the label of the image it hides,
    when what makes it invalid is skipped by the decoder. *)
Lemma junk_is_decoded_away (s : string) :
  outcome (analyze_behavior L (String "!" s)) = outcome (analyze_behavior L s).
Proof.
  unfold analyze_behavior.
  now rewrite !outcome_bind_call, !python, b64decode_skips_junk.
Qed.

(** What b64decode rejects stops the pipeline at its first statement. *)
Lemma rejected_encoding_propagates image_data e :
  Base64.b64decode image_data = raised e ->
  analyze_behavior L image_data = ([Ev_b64decode image_data], raised e).
Proof.
  intros Hb64. unfold analyze_behavior. rewrite python, Hb64. reflexivity.
Qed.

(** The exception of a call of OpenCV that raised, when it has a message. *)
Ltac opencv_message :=
  let messages := fresh "messages" in
  intros messages;
  destruct messages as (Mb64 & Mdec & Mdir & Mload & Mgray);
  match goal with
  | E : ?r = inl ?e |- exc_str ?e <> _ =>
      let H := fresh "H" in
      assert (H : has_message r)
        by first [apply Mdec | exact Mdir | apply Mload | apply Mgray];
      rewrite E in H; exact H
  end.

(** Bytes that are no image stop the pipeline in imdecode or, when imdecode
    returns None, in the first call after it that raises: a model load, or
    at the latest the grayscale conversion. *)
Lemma undecodable_image_propagates image_data :
  not_a_decodable_image L image_data ->
  exists e t ev,
    outcome (analyze_behavior L image_data) = raised e /\
    trace (analyze_behavior L image_data) = (t ++ [ev])%list /\
    raises_on L ev e /\
    In (kind ev) [K_imdecode; K_haarcascades; K_CascadeClassifier; K_cvtColor] /\
    calls is_b64decode (trace (analyze_behavior L image_data)) = 1%nat /\
    calls is_imdecode (trace (analyze_behavior L image_data)) = 1%nat /\
    calls is_detection (trace (analyze_behavior L image_data)) = 0%nat /\
    (raises_with_messages L -> exc_str e <> EmptyString).
Proof.
  destruct missing_frame as [e0 Hgray].
  intros (image_bytes & np_array & Hb64 & Hbuf & [Hnone | [e Hdec]]);
    unfold raised, ok in *;
    unfold_pipeline; repeat run_step;
    match goal with
    | |- exists e t ev, inl ?x = _ /\ ?l = _ /\ _ =>
        exists x, (removelast l), (last l Ev_haarcascades)
    end;
    cbn [removelast last];
    (split; [reflexivity |]);
    (split; [reflexivity |]);
    (split; [cbn [raises_on]; assumption |]);
    (split; [cbn [kind In]; tauto |]);
    (split; [reflexivity |]);
    (split; [reflexivity |]);
    (split; [reflexivity |]);
    opencv_message.
Qed.


End DecodeFailure.

(** ** Slices *)

Lemma wrap32_small (z : Z) : 0 <= z < 2 ^ 31 -> wrap32 z = z.
Proof. intros Hz. unfold wrap32. rewrite Z.mod_small; lia. Qed.

Section Slices.

Context {A : Type}.

Lemma slice_in_range (l : list A) (a b : Z) :
  0 <= a <= b -> b <= Z.of_nat (length l) ->
  slice l a b = firstn (Z.to_nat (b - a)) (skipn (Z.to_nat a) l).
Proof.
  intros Hab Hb. unfold slice, slice_bound.
  destruct (Z.ltb_spec a 0); [lia |].
  destruct (Z.ltb_spec b 0); [lia |].
  now rewrite !Z.min_l by lia.
Qed.

Lemma length_slice (l : list A) (a b : Z) :
  0 <= a <= b -> b <= Z.of_nat (length l) ->
  length (slice l a b) = Z.to_nat (b - a).
Proof.
  intros Hab Hb. rewrite slice_in_range by assumption.
  rewrite length_firstn, length_skipn. lia.
Qed.

Lemma nth_error_slice (l : list A) (a b : Z) (i : nat) :
  0 <= a <= b -> b <= Z.of_nat (length l) ->
  (i < Z.to_nat (b - a))%nat ->
  nth_error (slice l a b) i = nth_error l (Z.to_nat a + i).
Proof.
  intros Hab Hb Hi. rewrite slice_in_range by assumption.
  rewrite nth_error_firstn, nth_error_skipn.
  apply Nat.ltb_lt in Hi. now rewrite Hi.
Qed.

End Slices.

(** Within the bounds of a grid that OpenCV can hold, slicing by the sides
    of a box gives the rectangle of the box. *)
Lemma slice2_exact_crop {A : Type} (g : list (list A)) (box : Rect) (rows cols : nat) :
  grid_shape g rows cols ->
  Z.of_nat rows < 2 ^ 31 -> Z.of_nat cols < 2 ^ 31 ->
  box_within box rows cols ->
  exact_crop
    (slice2 g (rect_y box) (int32_add (rect_y box) (rect_h box))
              (rect_x box) (int32_add (rect_x box) (rect_w box)))
    g box.
Proof.
  intros [Hrows Hcols] Hr Hc (Hx & Hy & Hw & Hh & Hxw & Hyh).
  unfold int32_add. rewrite !wrap32_small by lia.
  rewrite Forall_forall in Hcols.
  assert (Hrow : forall i row,
             (i < Z.to_nat (rect_h box))%nat ->
             nth_error (slice g (rect_y box) (rect_y box + rect_h box)) i = Some row ->
             nth_error g (Z.to_nat (rect_y box) + i) = Some row /\ length row = cols).
  { intros i row Hi Hnth.
    rewrite nth_error_slice in Hnth by lia.
    split; [exact Hnth |]. apply Hcols. eapply nth_error_In; eassumption. }
  assert (Hlen : length (slice g (rect_y box) (rect_y box + rect_h box))
                 = Z.to_nat (rect_h box)).
  { rewrite length_slice by lia. f_equal; lia. }
  unfold slice2. split.
  - split; [now rewrite length_map |].
    apply Forall_map, Forall_forall. intros row Hin.
    apply In_nth_error in Hin. destruct Hin as [i Hi].
    assert (Hlt : (i < Z.to_nat (rect_h box))%nat).
    { rewrite <- Hlen. apply nth_error_Some. now rewrite Hi. }
    destruct (Hrow i row Hlt Hi) as [_ Hcol].
    rewrite length_slice by lia. f_equal; lia.
  - intros i j Hi Hj. unfold sample. rewrite nth_error_map.
    destruct (nth_error (slice g (rect_y box) (rect_y box + rect_h box)) i)
      as [row |] eqn:Hnth.
    + destruct (Hrow i row Hi Hnth) as [Hg Hcol].
      rewrite Hg. cbn [option_map].
      rewrite nth_error_slice by lia.
      split; [| reflexivity].
      apply nth_error_Some. lia.
    + apply nth_error_None in Hnth. lia.
Qed.

(** ** What the Eye Detector is given *)

Section EyeDetector.

Variable L : Library.

(** The detectors are called with one of two configurations, that of the
    Face Detector and that of the Eye Detector, which differ. *)
Lemma detector_call_configurations image_data c image cfg :
  In (Ev_detectMultiScale c image cfg) (trace (analyze_behavior L image_data)) ->
  cfg = face_params \/ cfg = eye_params.
Proof.
  pipeline_cases faces;
    try match goal with
        | |- context [(length ?l <? 2)%nat] => destruct (length l <? 2)%nat
        end;
    cbn [trace fst ret raise In app];
    intros Hin;
    repeat match goal with
           | H : _ \/ _ |- _ => destruct H as [H | H]
           | H : False |- _ => destruct H
           end;
    try discriminate;
    injection Hin as _ _ <-; auto.
Qed.

Lemma face_params_not_eye_params : face_params <> eye_params.
Proof. discriminate. Qed.

(** C9. A detector call with the configuration of the Eye Detector is made
    on the eye model, after the Face Detector returned at least one box,
    and on the slice of the grayscale grid by the sides of the first box;
    for a box within the grid, that slice is exactly the rectangle of the
    box. *)
Theorem eye_detector_sees_first_face_only image_data c image cfg :
  In (Ev_detectMultiScale c image cfg) (trace (analyze_behavior L image_data)) ->
  cfg = eye_params ->
  exists faces gray face,
    face_detector_returns L image_data faces gray c /\
    nth_error faces 0 = Some face /\
    image = slice2 gray (rect_y face) (int32_add (rect_y face) (rect_h face))
                        (rect_x face) (int32_add (rect_x face) (rect_w face)) /\
    (forall rows cols,
        grid_shape gray rows cols ->
        Z.of_nat rows < 2 ^ 31 -> Z.of_nat cols < 2 ^ 31 ->
        box_within face rows cols ->
        exact_crop image gray face).
Proof.
  pipeline_cases faces;
    try match goal with
        | |- context [(length ?l <? 2)%nat] => destruct (length l <? 2)%nat
        end;
    cbn [trace fst ret raise In app];
    intros Hin Hcfg;
    repeat match goal with
           | H : _ \/ _ |- _ => destruct H as [H | H]
           | H : False |- _ => destruct H
           end;
    try discriminate;
    try (injection Hin as <- <- <-; discriminate).
  all: injection Hin as <- <- _.
  all: match goal with
       | Hb : base64_b64decode L _ = inr ?image_bytes,
         Hn : np_frombuffer L _ = inr ?np_array,
         Hd : cv2_imdecode L _ = inr ?frame,
         Hh : cv2_data_haarcascades L = inr ?dir,
         Hf : cv2_CascadeClassifier L (_ ++ frontalface_xml) = inr ?fc,
         He : cv2_CascadeClassifier L (_ ++ eye_xml) = inr ?ec,
         Hg : cv2_cvtColor L _ = inr ?gray,
         Hfaces : detectMultiScale _ _ face_params = inr (?face :: ?rest) |- _ =>
           exists (face :: rest), gray, face;
           split; [exists image_bytes, np_array, frame, dir, fc;
                   repeat split; try assumption;
                   unfold detect_face, call_detectMultiScale;
                   call_returns Hg; call_returns Hfaces; reflexivity |];
           split; [reflexivity |];
           split; [reflexivity |];
           intros rows cols; apply slice2_exact_crop
       end.
Qed.

End EyeDetector.

(** * The script at work on the demonstration library *)

(** The three scenarios of the specification: no face, a face with one eye,
    a face with two eyes. *)
Example demo_no_face :
  printed (trace (main Demo.lib ["behavior-analysis.py"; "Ixxxx"]))
  = [json_dumps [("status", "idle")]].
Proof. reflexivity. Qed.

Example demo_one_eye :
  printed (trace (main Demo.lib ["behavior-analysis.py"; "Igexx"]))
  = [json_dumps [("status", "sleeping")]].
Proof. reflexivity. Qed.

Example demo_two_eyes :
  printed (trace (main Demo.lib ["behavior-analysis.py"; "Ifexx"]))
  = [json_dumps [("status", "working")]].
Proof. reflexivity. Qed.

Example demo_status_text :
  json_dumps [("status", "working")]
  = "{" ++ dquote ++ "status" ++ dquote ++ ": " ++ dquote ++ "working" ++ dquote ++ "}".
Proof. reflexivity. Qed.

(** Bytes that are no image: imdecode returns None, and the request fails in
    the grayscale conversion of [detect_face], after the models were loaded. *)
Example demo_no_image :
  library_calls (trace (main Demo.lib ["behavior-analysis.py"; "xyz"]))
  = [Ev_b64decode "xyz";
     Ev_frombuffer ["x"; "y"; "z"]%byte;
     Ev_imdecode ["x"; "y"; "z"]%byte;
     Ev_haarcascades;
     Ev_CascadeClassifier (Demo.haarcascades ++ frontalface_xml);
     Ev_haarcascades;
     Ev_CascadeClassifier (Demo.haarcascades ++ eye_xml);
     Ev_cvtColor None].
Proof. reflexivity. Qed.

(** Slices follow Python: bounds are clipped, negative ones count from the
    end; and int32 sums wrap. *)
Example demo_slices :
  slice [1; 2; 3; 4; 5] 1 3 = [2; 3] /\
  slice [1; 2; 3; 4; 5] (-2) 10 = [4; 5] /\
  slice [1; 2; 3; 4; 5] 4 2 = [] /\
  int32_add (2 ^ 31 - 1) 1 = - 2 ^ 31.
Proof. repeat split. Qed.

(** A box that leaves the grid is clipped by the slice, as numpy does: of a
    2x2 box at (3, 3) a 4x4 grid holds one sample. *)
Example demo_clipped_slice :
  slice2 (Demo.grid "f" "e") 3 (int32_add 3 2) 3 (int32_add 3 2) = [["x"%byte]].
Proof. reflexivity. Qed.

(** json.dumps escapes what is not printable ASCII. *)
Example demo_escape :
  escape (String (ascii_of_nat 10) (String (ascii_of_nat 200) EmptyString))
  = backslash ++ "n" ++ backslash ++ "u00c8".
Proof. reflexivity. Qed.

(** The empty payload is never handed to the pipeline by [main]; the
    pipeline would fail on it, in imdecode. *)
Example demo_empty_payload :
  not_a_decodable_image Demo.lib EmptyString /\
  outcome (analyze_behavior Demo.lib EmptyString)
  = raised (mkExc "cv2.error"
              "(-215:Assertion failed) !buf.empty() in function 'imdecode_'").
Proof.
  split; [| reflexivity].
  exists [], []. repeat split. right. eexists. reflexivity.
Qed.

Lemma demo_raises_with_messages : raises_with_messages Demo.lib.
Proof.
  repeat split; simpl.
  - intros s. unfold Demo.b64decode. now destruct (String.eqb s "=").
  - intros [| x rest]; simpl; [discriminate |]. now destruct (Byte.eqb x "I").
  - intros path. unfold Demo.CascadeClassifier. now destruct (String.eqb path _).
  - intros [frame |]; simpl; [exact I | discriminate].
Defined.

Lemma demo_rejects_missing_frame : rejects_missing_frame Demo.lib.
Proof. eexists. reflexivity. Defined.

(** ** The theorems at concrete inputs *)

Lemma no_face_is_idle_witness :
  face_detector_returns Demo.lib "Ixxxx" [] (Demo.grid "x" "x") Demo.eye_model /\
  outcome (analyze_behavior Demo.lib "Ixxxx") = ok "idle".
Proof.
  assert (Hrun : face_detector_returns Demo.lib "Ixxxx" [] (Demo.grid "x" "x")
                   Demo.eye_model).
  { do 5 eexists. repeat split; reflexivity. }
  split; [exact Hrun |].
  apply (no_face_is_idle Demo.lib "Ixxxx" [] (Demo.grid "x" "x") Demo.eye_model Hrun).
  reflexivity.
Defined.

Lemma few_eyes_is_sleeping_witness :
  face_detector_returns Demo.lib "Igexx" [mkRect 0 0 1 2] (Demo.grid "g" "e")
    Demo.eye_model /\
  outcome (detect_eyes Demo.eye_model (Demo.grid "g" "e") (mkRect 0 0 1 2))
  = ok [mkRect 0 0 1 1] /\
  outcome (analyze_behavior Demo.lib "Igexx") = ok "sleeping".
Proof.
  assert (Hrun : face_detector_returns Demo.lib "Igexx" [mkRect 0 0 1 2]
                   (Demo.grid "g" "e") Demo.eye_model).
  { do 5 eexists. repeat split; reflexivity. }
  split; [exact Hrun |]. split; [reflexivity |].
  apply (few_eyes_is_sleeping Demo.lib "Igexx" _ _ _ (mkRect 0 0 1 2) [mkRect 0 0 1 1] Hrun).
  - reflexivity.
  - reflexivity.
  - simpl. lia.
Defined.

Lemma two_eyes_is_working_witness :
  face_detector_returns Demo.lib "Ifexx" [mkRect 0 0 2 2; mkRect 1 1 2 2]
    (Demo.grid "f" "e") Demo.eye_model /\
  outcome (detect_eyes Demo.eye_model (Demo.grid "f" "e") (mkRect 0 0 2 2))
  = ok [mkRect 0 0 1 1; mkRect 0 0 1 1] /\
  outcome (analyze_behavior Demo.lib "Ifexx") = ok "working".
Proof.
  assert (Hrun : face_detector_returns Demo.lib "Ifexx" [mkRect 0 0 2 2; mkRect 1 1 2 2]
                   (Demo.grid "f" "e") Demo.eye_model).
  { do 5 eexists. repeat split; reflexivity. }
  split; [exact Hrun |]. split; [reflexivity |].
  apply (two_eyes_is_working Demo.lib "Ifexx" _ _ _ (mkRect 0 0 2 2)
           [mkRect 0 0 1 1; mkRect 0 0 1 1] Hrun).
  - reflexivity.
  - reflexivity.
  - simpl. lia.
Defined.

Lemma moving_is_never_produced_witness :
  outcome (analyze_behavior Demo.lib "Ifexx") = ok "working" /\
  In "working" produced_labels /\ "working" <> "moving".
Proof.
  split; [reflexivity |].
  apply (moving_is_never_produced Demo.lib "Ifexx" "working"). reflexivity.
Defined.

Lemma no_argument_output_witness :
  main Demo.lib ["behavior-analysis.py"] = ([Ev_print no_image_output], ok tt).
Proof.
  apply (no_argument_output Demo.lib ["behavior-analysis.py"]). simpl. lia.
Defined.

(** With the decoder of Python: eHl6 holds the bytes xyz, which are no
    image, and the request fails in the grayscale conversion. *)
Example demo_python_no_image :
  not_a_decodable_image PyDemo.lib "eHl6" /\
  printed (trace (main PyDemo.lib ["behavior-analysis.py"; "eHl6"]))
  = [json_dumps (error_response
                   "(-215:Assertion failed) !_src.empty() in function 'cvtColor'")].
Proof.
  split; [| reflexivity].
  do 2 eexists. repeat split; try reflexivity. left. reflexivity.
Qed.

(** What Python decodes and what it rejects. *)
Example demo_b64decode :
  Base64.b64decode "SWZleHg=" = ok ["I"; "f"; "e"; "x"; "x"]%byte /\
  Base64.b64decode "!SWZleHg=" = ok ["I"; "f"; "e"; "x"; "x"]%byte /\
  Base64.b64decode "SWZleHg" = raised (mkExc "binascii.Error" "Incorrect padding") /\
  Base64.b64decode "SWZle"
  = raised (mkExc "binascii.Error"
              "Invalid base64-encoded string: number of data characters (5) cannot be 1 more than a multiple of 4").
Proof. repeat split. Qed.

Lemma demo_python_base64 : python_base64 PyDemo.lib.
Proof. intros s. reflexivity. Defined.

Lemma demo_rejects_missing_frame_py : rejects_missing_frame PyDemo.lib.
Proof. eexists. reflexivity. Defined.



Lemma eye_detector_sees_first_face_only_witness :
  exact_crop [["f"; "f"]; ["e"; "e"]]%byte (Demo.grid "f" "e") (mkRect 0 0 2 2).
Proof.
  destruct (eye_detector_sees_first_face_only Demo.lib "Ifexx" Demo.eye_model
              [["f"; "f"]; ["e"; "e"]]%byte eye_params)
    as (faces & gray & face & Hrun & Hface & _ & Hcrop).
  - do 9 right. left. reflexivity.
  - reflexivity.
  - destruct Hrun as (image_bytes & np_array & frame & dir & face_cascade &
                      Hb64 & Hbuf & Hdec & Hdir & Hload & _ & Hdet).
    vm_compute in Hb64. injection Hb64 as <-.
    vm_compute in Hbuf. injection Hbuf as <-.
    vm_compute in Hdec. injection Hdec as <-.
    vm_compute in Hdir. injection Hdir as <-.
    vm_compute in Hload. injection Hload as <-.
    vm_compute in Hdet. injection Hdet as <- <-.
    injection Hface as <-.
    apply (Hcrop 4%nat 4%nat).
    + split; [reflexivity | repeat constructor].
    + reflexivity.
    + reflexivity.
    + unfold box_within. simpl. lia.
Defined.

Lemma failures_become_error_output_witness :
  printed (trace (main Demo.lib ["behavior-analysis.py"; "="]))
  = [json_dumps (error_response "Incorrect padding")].
Proof.
  apply (proj2 (proj2 (failures_become_error_output Demo.lib
                         ["behavior-analysis.py"; "="]))
           (mkExc "binascii.Error" "Incorrect padding")).
  - discriminate.
  - reflexivity.
Defined.

(** * Further properties of the script *)

(** ** The calls of the pipeline *)

(** The faces and the grid that [detect_face] returns are the answers of
    the two calls it makes. *)
Lemma detect_face_returns (L : Library) face_cascade frame faces gray :
  outcome (detect_face L face_cascade frame) = ok (faces, gray) <->
  cv2_cvtColor L frame = ok gray /\
  detectMultiScale face_cascade gray face_params = ok faces.
Proof.
  unfold detect_face, call_detectMultiScale, ok.
  rewrite outcome_bind_call.
  destruct (cv2_cvtColor L frame) as [e | g]; [split; [discriminate | now intros [? _]] |].
  rewrite outcome_bind_call.
  destruct (detectMultiScale face_cascade g face_params) as [e | fs] eqn:Hfs.
  - split; [discriminate |]. intros [[= ->] H]. rewrite Hfs in H. discriminate.
  - cbn [outcome snd ret ok]. split.
    + intros [= <- <-]. now split.
    + intros [[= ->] H]. rewrite Hfs in H. now injection H as ->.
Qed.

(** The way to the Face Detector, from the equations that a run by cases
    leaves in the context. *)
Ltac face_detector_reached :=
  match goal with
  | Hb : base64_b64decode ?L _ = inr ?image_bytes,
    Hn : np_frombuffer ?L _ = inr ?np_array,
    Hd : cv2_imdecode ?L _ = inr ?frame,
    Hh : cv2_data_haarcascades ?L = inr ?dir,
    Hf : cv2_CascadeClassifier ?L (_ ++ frontalface_xml) = inr ?fc,
    He : cv2_CascadeClassifier ?L (_ ++ eye_xml) = inr ?ec,
    Hg : cv2_cvtColor ?L _ = inr ?gray,
    Hfaces : detectMultiScale _ _ face_params = inr ?faces
    |- exists _ _ _, face_detector_returns ?L _ _ _ _ /\ _ =>
      exists faces, gray, ec;
      split;
      [ exists image_bytes, np_array, frame, dir, fc;
        repeat split; try assumption;
        apply detect_face_returns; split; assumption | ]
  end.

(** The end of a run by cases: the branches of the last test. *)
Ltac last_test :=
  try match goal with
      | |- context [(length ?l <? 2)%nat] => destruct (length l <? 2)%nat eqn:?
      end.

Section Calls.

Variable L : Library.

(** X1. The library calls of a request follow the statements of the
    pipeline, each made once and in their order; a request makes ten calls
    at most, and stops where one of them fails. *)
Theorem calls_follow_the_protocol image_data :
  is_prefix (map kind (trace (analyze_behavior L image_data))) pipeline_protocol.
Proof.
  pipeline_cases faces; last_test; eexists; reflexivity.
Qed.

(** X2. A failure of the pipeline is the exception of its last library
    call, as the library raised it; the calls before it all returned, and
    none is made after it. *)
Theorem failure_is_the_last_call image_data e :
  outcome (analyze_behavior L image_data) = raised e ->
  exists t ev,
    trace (analyze_behavior L image_data) = (t ++ [ev])%list /\
    raises_on L ev e /\
    Forall (returns_on L) t.
Proof.
  unfold raised.
  pipeline_cases faces; last_test; cbn [outcome snd ret];
    intros Hraise; try discriminate; injection Hraise as <-;
    match goal with
    | |- exists t ev, ?l = _ /\ _ =>
        exists (removelast l), (last l Ev_haarcascades)
    end;
    cbn [removelast last];
    (split; [reflexivity |]);
    (split; [cbn [raises_on]; assumption |]);
    repeat constructor;
    intros e' He'; cbn [raises_on] in He'; unfold raised in He'; congruence.
Qed.

(** X3. The Face Detector is given the whole grayscale grid of the decoded
    frame: a detector call with its configuration is on the model loaded
    from the frontal face file, and on what cvtColor made of the frame that
    imdecode returned for the decoded bytes of the payload. *)
Theorem face_detector_sees_whole_frame image_data c image cfg :
  In (Ev_detectMultiScale c image cfg) (trace (analyze_behavior L image_data)) ->
  cfg = face_params ->
  exists image_bytes np_array frame dir,
    base64_b64decode L image_data = ok image_bytes /\
    np_frombuffer L image_bytes = ok np_array /\
    cv2_imdecode L np_array = ok frame /\
    cv2_data_haarcascades L = ok dir /\
    cv2_CascadeClassifier L (dir ++ frontalface_xml) = ok c /\
    cv2_cvtColor L frame = ok image.
Proof.
  pipeline_cases faces; last_test;
    cbn [trace fst ret raise In app];
    intros Hin Hcfg;
    repeat match goal with
           | H : _ \/ _ |- _ => destruct H as [H | H]
           | H : False |- _ => destruct H
           end;
    try discriminate;
    try (injection Hin as <- <- <-; discriminate);
    injection Hin as <- <- _;
    do 4 eexists; repeat split; eassumption.
Qed.

(** X4. Without a face the Eye Detector is not run: when the Face Detector
    returns no box, the request makes one detector call, and none with the
    configuration of the Eye Detector. *)
Theorem no_face_no_eye_detection image_data gray eye_cascade :
  face_detector_returns L image_data [] gray eye_cascade ->
  calls is_detection (trace (analyze_behavior L image_data)) = 1%nat /\
  forall c image,
    ~ In (Ev_detectMultiScale c image eye_params) (trace (analyze_behavior L image_data)).
Proof.
  intros (image_bytes & np_array & frame & dir & face_cascade &
          Hb64 & Hbuf & Hdec & Hdir & Hface & Heye & Hdet).
  apply detect_face_returns in Hdet. destruct Hdet as [Hgray Hfaces].
  unfold ok in *.
  unfold_pipeline. repeat run_step. cbn [length Nat.eqb].
  split; [reflexivity |].
  intros c image Hin. cbn [trace fst ret In app] in Hin.
  repeat match goal with
         | H : _ \/ _ |- _ => destruct H as [H | H]
         | H : False |- _ => destruct H
         end;
    discriminate.
Qed.

(** X5. Both models are loaded before the frame is looked at: when the eye
    model fails to load, the request fails with that exception, whatever the
    image shows, and neither the grayscale conversion nor a detector runs. *)
Theorem eye_model_is_needed_for_every_label
    image_data image_bytes np_array frame dir face_cascade e :
  base64_b64decode L image_data = ok image_bytes ->
  np_frombuffer L image_bytes = ok np_array ->
  cv2_imdecode L np_array = ok frame ->
  cv2_data_haarcascades L = ok dir ->
  cv2_CascadeClassifier L (dir ++ frontalface_xml) = ok face_cascade ->
  cv2_CascadeClassifier L (dir ++ eye_xml) = raised e ->
  outcome (analyze_behavior L image_data) = raised e /\
  Forall (fun ev => kind ev <> K_cvtColor /\ kind ev <> K_detectMultiScale)
         (trace (analyze_behavior L image_data)).
Proof.
  intros Hb64 Hbuf Hdec Hdir Hface Heye.
  unfold ok, raised in *.
  unfold_pipeline. repeat run_step.
  split; [reflexivity |].
  repeat constructor; discriminate.
Qed.

(** X6. The label tells what the detectors found: a request labelled idle
    had no face box, one labelled sleeping had a first face with fewer than
    two eye boxes, one labelled working a first face with two or more. *)
Theorem label_tells_the_detections image_data label :
  outcome (analyze_behavior L image_data) = ok label ->
  exists faces gray eye_cascade,
    face_detector_returns L image_data faces gray eye_cascade /\
    ((label = "idle" /\ faces = []) \/
     exists face eyes,
       nth_error faces 0 = Some face /\
       outcome (detect_eyes eye_cascade gray face) = ok eyes /\
       ((label = "sleeping" /\ (length eyes < 2)%nat) \/
        (label = "working" /\ (2 <= length eyes)%nat))).
Proof.
  unfold ok.
  pipeline_cases faces; last_test; cbn [outcome snd ret ok];
    intros Hlabel; try discriminate; injection Hlabel as <-;
    face_detector_reached.
  - left. now split.
  - right. do 2 eexists. split; [reflexivity |].
    split; [unfold detect_eyes, call_detectMultiScale;
            rewrite outcome_bind_call;
            match goal with H : detectMultiScale _ _ eye_params = _ |- _ => rewrite H end;
            reflexivity |].
    left. split; [reflexivity |]. now apply Nat.ltb_lt.
  - right. do 2 eexists. split; [reflexivity |].
    split; [unfold detect_eyes, call_detectMultiScale;
            rewrite outcome_bind_call;
            match goal with H : detectMultiScale _ _ eye_params = _ |- _ => rewrite H end;
            reflexivity |].
    right. split; [reflexivity |]. now apply Nat.ltb_ge.
Qed.

End Calls.

(** ** The crop of a box that may leave the grid *)

Lemma nth_error_slice_clipped {A : Type} (l : list A) (a b : Z) (i : nat) :
  0 <= a <= b ->
  nth_error (slice l a b) i
  = if (i <? Z.to_nat (b - a))%nat then nth_error l (Z.to_nat a + i) else None.
Proof.
  intros Hab. unfold slice, slice_bound.
  destruct (Z.ltb_spec a 0); [lia |].
  destruct (Z.ltb_spec b 0); [lia |].
  rewrite nth_error_firstn, nth_error_skipn.
  set (n := Z.of_nat (length l)).
  destruct (Nat.ltb_spec i (Z.to_nat (Z.min b n - Z.min a n)));
    destruct (Nat.ltb_spec i (Z.to_nat (b - a))); try lia.
  - f_equal. lia.
  - symmetry. apply nth_error_None. lia.
  - reflexivity.
Qed.

(** X7. The region that [detect_eyes] cuts out is the part of the box that
    lies on the grid: for a box with sides that are not negative and whose
    far corner fits an int32, the sample of the region at (i, j) is the sample
    of the grid at (y + i, x + j) inside the box, and there is none outside;
    a box that leaves the grid is clipped and raises nothing. *)
Theorem crop_is_box_on_grid {A : Type} (g : list (list A)) (box : Rect) (i j : nat) :
  0 <= rect_x box -> 0 <= rect_y box -> 0 <= rect_w box -> 0 <= rect_h box ->
  rect_x box + rect_w box < 2 ^ 31 -> rect_y box + rect_h box < 2 ^ 31 ->
  sample (slice2 g (rect_y box) (int32_add (rect_y box) (rect_h box))
                   (rect_x box) (int32_add (rect_x box) (rect_w box))) i j
  = if ((i <? Z.to_nat (rect_h box)) && (j <? Z.to_nat (rect_w box)))%nat
    then sample g (Z.to_nat (rect_y box) + i) (Z.to_nat (rect_x box) + j)
    else None.
Proof.
  intros Hx Hy Hw Hh Hxw Hyh.
  unfold int32_add. rewrite !wrap32_small by lia.
  unfold sample, slice2. rewrite nth_error_map, nth_error_slice_clipped by lia.
  replace (rect_y box + rect_h box - rect_y box) with (rect_h box) by lia.
  destruct (i <? Z.to_nat (rect_h box))%nat; [| reflexivity].
  cbn [andb].
  destruct (nth_error g (Z.to_nat (rect_y box) + i)) as [row |];
    cbn [option_map].
  - rewrite nth_error_slice_clipped by lia.
    now replace (rect_x box + rect_w box - rect_x box) with (rect_w box) by lia.
  - now destruct (j <? Z.to_nat (rect_w box))%nat.
Qed.

(** ** The answers of the request handler *)

Lemma status_output_of_label (label : string) :
  In label produced_labels -> json_dumps [("status", label)] = status_output label.
Proof.
  intros [<- | [<- | [<- | []]]]; reflexivity.
Qed.

Lemma no_b64decode_calls (t : list Event) :
  (forall s, ~ In (Ev_b64decode s) t) -> calls is_b64decode t = 0%nat.
Proof.
  unfold calls. induction t as [| ev t IH]; intros Hno; [reflexivity |].
  destruct ev; cbn [filter is_b64decode];
    try (apply IH; intros s' Hin; apply (Hno s'); now right).
  elim (Hno s). now left.
Qed.

Section Answers.

Variable L : Library.

(** X8. When the pipeline returns a label, [main] makes the library calls of
    that one run, then prints the status object of the label, in which the
    label stands as it is, and returns. *)
Theorem label_is_printed_as_status argv label :
  outcome (analyze_behavior L (image_argument argv)) = ok label ->
  image_argument argv <> EmptyString ->
  main L argv
  = ((trace (analyze_behavior L (image_argument argv))
      ++ [Ev_print (status_output label)])%list, ok tt).
Proof.
  intros Hlabel Harg. rewrite main_run.
  destruct (image_argument argv) as [| c s] eqn:Himage; [now elim Harg |].
  unfold response. rewrite Hlabel. cbv beta iota delta [ok].
  now rewrite (status_output_of_label label (analyze_behavior_label L _ _ Hlabel)).
Qed.

(** X9. The status moving is never printed, whatever the command line and
    the libraries: not as a label, and not through an error message. *)
Theorem moving_is_never_printed argv :
  ~ In (status_output "moving") (printed (trace (main L argv))).
Proof.
  rewrite main_printed. intros [Hline | []].
  unfold response in Hline.
  destruct (image_argument argv) as [| c s]; [discriminate |].
  destruct (outcome (analyze_behavior L (String c s))) as [e | label] eqn:Hrun.
  - unfold json_dumps, error_response in Hline.
    cbn [map String.concat json_item json_string fst snd escape] in Hline.
    discriminate.
  - apply analyze_behavior_label in Hrun.
    destruct Hrun as [<- | [<- | [<- | []]]]; discriminate.
Qed.

(** X10. Of the command line [main] reads the image argument only: two
    command lines with the same sys.argv[1], or both without one, give the
    same run, whatever the program name and the arguments that follow. *)
Theorem only_the_image_argument_is_read argv argv' :
  image_argument argv = image_argument argv' ->
  main L argv = main L argv'.
Proof.
  intros Hsame. now rewrite !main_run, Hsame.
Qed.

(** X11. A request runs the pipeline once when it has an image argument and
    not at all without, also when the pipeline fails: [main] decodes as
    often as that, and its print is the last thing it does. *)
Theorem one_pipeline_run_per_request argv :
  calls is_b64decode (trace (main L argv))
  = match image_argument argv with
    | EmptyString => 0%nat
    | _ => 1%nat
    end /\
  exists t line, trace (main L argv) = (t ++ [Ev_print line])%list /\ printed t = [].
Proof.
  rewrite main_run. cbn [trace fst]. split.
  - unfold calls. rewrite filter_app, length_app. cbn [filter is_b64decode length].
    destruct (image_argument argv) as [| c s]; [reflexivity |].
    destruct (analyze_behavior_decodes_once L (String c s)) as (t & -> & Hno).
    cbn [filter is_b64decode length].
    fold (calls is_b64decode t). now rewrite (no_b64decode_calls t Hno).
  - do 2 eexists. split; [reflexivity |].
    destruct (image_argument argv); [reflexivity | apply analyze_behavior_prints_nothing].
Qed.

End Answers.

(** ** The further properties at concrete inputs *)

(** Where the eye model is missing, an image without a face is answered
    with an error, not with idle. *)
Example demo_missing_eye_model :
  printed (trace (main DemoFaults.lib ["behavior-analysis.py"; "Ixxxx"]))
  = [json_dumps (error_response
                   "(-2:Unspecified error) cannot open haarcascade_eye.xml")].
Proof. reflexivity. Qed.

Lemma failure_is_the_last_call_witness :
  exists t ev,
    trace (analyze_behavior Demo.lib "xyz") = (t ++ [ev])%list /\
    raises_on Demo.lib ev
      (mkExc "cv2.error" "(-215:Assertion failed) !_src.empty() in function 'cvtColor'") /\
    Forall (returns_on Demo.lib) t.
Proof.
  apply (failure_is_the_last_call Demo.lib "xyz"). reflexivity.
Defined.

Lemma face_detector_sees_whole_frame_witness :
  exists image_bytes np_array frame dir,
    base64_b64decode Demo.lib "Ifexx" = ok image_bytes /\
    np_frombuffer Demo.lib image_bytes = ok np_array /\
    cv2_imdecode Demo.lib np_array = ok frame /\
    cv2_data_haarcascades Demo.lib = ok dir /\
    cv2_CascadeClassifier Demo.lib (dir ++ frontalface_xml) = ok Demo.face_model /\
    cv2_cvtColor Demo.lib frame = ok (Demo.grid "f" "e").
Proof.
  apply (face_detector_sees_whole_frame Demo.lib "Ifexx" Demo.face_model
           (Demo.grid "f" "e") face_params).
  - do 8 right. left. reflexivity.
  - reflexivity.
Defined.

Lemma no_face_no_eye_detection_witness :
  calls is_detection (trace (analyze_behavior Demo.lib "Ixxxx")) = 1%nat.
Proof.
  apply (no_face_no_eye_detection Demo.lib "Ixxxx" (Demo.grid "x" "x") Demo.eye_model).
  do 5 eexists. repeat split; reflexivity.
Defined.

Lemma eye_model_is_needed_for_every_label_witness :
  outcome (analyze_behavior DemoFaults.lib "Ixxxx")
  = raised (mkExc "cv2.error" "(-2:Unspecified error) cannot open haarcascade_eye.xml").
Proof.
  eapply (eye_model_is_needed_for_every_label DemoFaults.lib "Ixxxx");
    reflexivity.
Defined.

Lemma label_tells_the_detections_witness :
  exists faces gray eye_cascade,
    face_detector_returns Demo.lib "Igexx" faces gray eye_cascade /\
    (("sleeping" = "idle" /\ faces = []) \/
     exists face eyes,
       nth_error faces 0 = Some face /\
       outcome (detect_eyes eye_cascade gray face) = ok eyes /\
       (("sleeping" = "sleeping" /\ (length eyes < 2)%nat) \/
        ("sleeping" = "working" /\ (2 <= length eyes)%nat))).
Proof.
  apply (label_tells_the_detections Demo.lib "Igexx" "sleeping"). reflexivity.
Defined.

Lemma crop_is_box_on_grid_witness :
  sample (slice2 (Demo.grid "f" "e") 3 (int32_add 3 2) 3 (int32_add 3 2)) 0 0
  = Some "x"%byte /\
  sample (slice2 (Demo.grid "f" "e") 3 (int32_add 3 2) 3 (int32_add 3 2)) 1 0
  = None.
Proof.
  split.
  - apply (crop_is_box_on_grid (Demo.grid "f" "e") (mkRect 3 3 2 2) 0 0);
      simpl; lia.
  - apply (crop_is_box_on_grid (Demo.grid "f" "e") (mkRect 3 3 2 2) 1 0);
      simpl; lia.
Defined.

Lemma label_is_printed_as_status_witness :
  main Demo.lib ["behavior-analysis.py"; "Ifexx"]
  = ((trace (analyze_behavior Demo.lib "Ifexx")
      ++ [Ev_print (status_output "working")])%list, ok tt).
Proof.
  apply (label_is_printed_as_status Demo.lib ["behavior-analysis.py"; "Ifexx"] "working").
  - reflexivity.
  - discriminate.
Defined.

Lemma only_the_image_argument_is_read_witness :
  main Demo.lib ["behavior-analysis.py"; "Ifexx"; "--verbose"]
  = main Demo.lib ["analysis"; "Ifexx"].
Proof.
  apply (only_the_image_argument_is_read Demo.lib). reflexivity.
Defined.
